(** * Confluence gateway and tool bindings: request normalisation

    A shallow embedding of [confluence-service.ts] (the [ConfluenceService]
    class) and of the tool handlers of [packages/confluence/src/index.ts],
    with the properties of their request-normalisation layer.

    JavaScript values are an inductive type with the language's truthiness;
    object literals are association lists in insertion order, so that an
    absent property and a property holding [undefined] stay distinct.  The
    generated REST client is an oracle: every remote operation is recorded
    in a trace together with the module-global [OpenAPI] configuration in
    force when it was issued. *)

From Stdlib Require Import String Ascii ZArith Bool List.
From stdpp Require Import base option list strings pretty gmap.

#[local] Set Warnings "-register-all".
Local Open Scope string_scope.
Local Open Scope Z_scope.

(** ** JavaScript strings *)

Module Js.

(** Strings are sequences of characters; only concatenation, emptiness and
    substring search are used by the code. *)

Definition isEmpty (s : string) : bool :=
  match s with
  | EmptyString => true
  | String _ _ => false
  end.

(** [s.startsWith(p)] *)
Fixpoint startsWith (s p : string) : bool :=
  match p, s with
  | EmptyString, _ => true
  | String _ _, EmptyString => false
  | String b p', String a s' => if Ascii.eqb a b then startsWith s' p' else false
  end.

(** [s.includes(sub)]: [sub] occurs in [s] at some position. *)
Fixpoint includes (s sub : string) : bool :=
  startsWith s sub ||
  match s with
  | EmptyString => false
  | String _ s' => includes s' sub
  end.

(** Template literals and [+] on strings. *)
Definition concat (parts : list string) : string :=
  foldr String.append EmptyString parts.

(** The double-quote character, as a one-character string. *)
Definition dquote : string := String (ascii_of_nat 34) EmptyString.

(** Numbers reaching this layer are version numbers and paging counts:
    integers.  Fractions, [NaN] and infinities are left out. *)
Definition number : Type := Z.

(** [n.toString()] on an integer. *)
Definition toString (n : number) : string := pretty n.

(** *** Values *)

Inductive value : Type :=
| Undefined
| Null
| Bool (b : bool)
| Num (n : number)
| Str (s : string)
| Arr (items : list value)
| Obj (props : list (string * value)).

(** [ToBoolean]: [undefined], [null], [false], [0] and the empty string
    are falsy. *)
Definition truthy (v : value) : bool :=
  match v with
  | Undefined | Null => false
  | Bool b => b
  | Num n => negb (n =? 0)
  | Str s => negb (isEmpty s)
  | Arr _ | Obj _ => true
  end.

(** An optional parameter ([x?: T]) is [None] when the caller passes
    nothing or [undefined]. *)
Definition ofString (o : option string) : value :=
  match o with
  | Some s => Str s
  | None => Undefined
  end.

(** Truthiness of an optional string: [if (x)] with [x?: string]. *)
Definition given (o : option string) : bool := truthy (ofString o).

(** The string held by a truthy optional string, as the branch guarded by
    [if (x)] reads it. *)
Definition whenGiven (o : option string) : option string :=
  match o with
  | Some s => if isEmpty s then None else Some s
  | None => None
  end.

(** [x || d] with [x?: string] and [d] a string. *)
Definition orElse (o : option string) (d : string) : string :=
  match o with
  | Some s => if isEmpty s then d else s
  | None => d
  end.

(** A default parameter value ([x: string = d]) replaces [undefined] only. *)
Definition defaultTo (o : option string) (d : string) : string :=
  match o with
  | Some s => s
  | None => d
  end.

(** [x && p(x)] in a condition, with [x?: string]. *)
Definition andThen (o : option string) (p : string -> bool) : bool :=
  match o with
  | Some s => negb (isEmpty s) && p s
  | None => false
  end.

(** [`${x}`] with [x?: string]. *)
Definition interp (o : option string) : string :=
  match o with
  | Some s => s
  | None => "undefined"
  end.

(** [n?.toString()] *)
Definition optToString (o : option number) : option string :=
  toString <$> o.

(** [a || b] on values. *)
Definition or (a b : value) : value := if truthy a then a else b.

(** *** Objects *)

Fixpoint lookup_prop (k : string) (props : list (string * value)) : option value :=
  match props with
  | [] => None
  | (k', v) :: rest => if String.eqb k k' then Some v else lookup_prop k rest
  end.

(** [k in o] for an own property. *)
Definition has (v : value) (k : string) : bool :=
  match v with
  | Obj props => bool_decide (is_Some (lookup_prop k props))
  | _ => false
  end.

(** [v.k]: a missing property, and any property of a primitive read by this
    code, evaluates to [undefined]. *)
Definition get (v : value) (k : string) : value :=
  match v with
  | Obj props => default Undefined (lookup_prop k props)
  | _ => Undefined
  end.

Fixpoint assign_prop (k : string) (x : value) (props : list (string * value))
  : list (string * value) :=
  match props with
  | [] => [(k, x)]
  | (k', v) :: rest =>
      if String.eqb k k' then (k, x) :: rest else (k', v) :: assign_prop k x rest
  end.

(** [o.k = x]: overwrite in place, or add as the last property. *)
Definition set (o : value) (k : string) (x : value) : value :=
  match o with
  | Obj props => Obj (assign_prop k x props)
  | _ => o
  end.

End Js.

(** ** The remote service and the module-global client configuration *)

(** [OpenAPI], the configuration object exported by the generated client.
    [TOKEN] is optional in the generated declaration. *)
Record OpenAPIConfig : Type := {
  BASE : string;
  TOKEN : option string;
  VERSION : string
}.

(** The operations of the generated client that the gateway calls, with the
    arguments the gateway passes.  [Search1] takes seven positional
    arguments; the first, third and sixth are always [undefined] here and
    are left out. *)
Inductive RemoteCall : Type :=
| GetContentById (id : string) (expand : string)
| Search1 (expand limit start : option string) (cql : string)
| CreateContent (payload : Js.value)
| Update2 (id : string) (payload : Js.value)
| Delete3 (id : string) (status : option string)
| ChildrenOfType (id type : string) (expand limit start : option string)
| Labels (id : string) (prefix limit start : option string)
| AddLabels (id : string) (payload : Js.value)
| CommentsOfContent (id expand : string) (depth limit start : option string)
| GetAttachments (id : string) (expand filename limit start mediaType : option string)
| RemoveAttachment (attachmentId contentId : string).

(** One issued request: the operation and the configuration read from
    [OpenAPI] at the time of the call. *)
Record Invocation : Type := {
  config : OpenAPIConfig;
  call : RemoteCall
}.

(** The promise returned by a client operation settles either way. *)
Inductive Outcome : Type :=
| Resolved (response : Js.value)
| Rejected (message : string).

(** The uniform result [{ success, data?, error? }]. *)
Record Envelope : Type := {
  success : bool;
  data : option Js.value;
  error : option string
}.

(** [envelope.data] read as a condition. *)
Definition hasData (e : Envelope) : bool :=
  match data e with
  | Some v => Js.truthy v
  | None => false
  end.

(** What lies outside the two source files: the remote service, which
    answers a request knowing the configuration and the requests made so
    far; the way [handleApiOperation] turns a settled promise and its label
    into an envelope; and [formatToolResponse]. *)
Class Platform : Type := {
  ToolResponse : Type;
  remote : OpenAPIConfig -> list Invocation -> RemoteCall -> Outcome;
  envelopeOf : string -> Outcome -> Envelope;
  formatToolResponse : Envelope -> ToolResponse
}.

(** Modelled from the spec: the envelope built by [handleApiOperation] of
    the common package, which is not among the sources.  A resolved call
    gives [{success: true, data}] with the raw response, a rejected one
    [{success: false, error}] with the error's message. *)
Definition specEnvelope (label : string) (o : Outcome) : Envelope :=
  match o with
  | Resolved v => {| success := true; data := Some v; error := None |}
  | Rejected m => {| success := false; data := None; error := Some m |}
  end.

(** ** Effects: module state, the request trace and exceptions *)

Record State : Type := {
  OpenAPI : OpenAPIConfig;
  trace : list Invocation
}.

Inductive completion (A : Type) : Type :=
| Normal (result : A)
| Thrown (message : string).
Arguments Normal {A} result.
Arguments Thrown {A} message.

Definition M (A : Type) : Type := State -> completion A * State.

#[export] Instance M_ret : MRet M := fun A (a : A) s => (Normal a, s).

#[export] Instance M_bind : MBind M := fun A B (k : A -> M B) (m : M A) s =>
  match m s with
  | (Normal a, s') => k a s'
  | (Thrown e, s') => (Thrown e, s')
  end.

(** [throw new Error(message)] *)
Definition throw {A : Type} (message : string) : M A :=
  fun s => (Thrown message, s).

(** [OpenAPI.k = v] *)
Definition modifyOpenAPI (f : OpenAPIConfig -> OpenAPIConfig) : M unit :=
  fun s => (Normal tt, {| OpenAPI := f (OpenAPI s); trace := trace s |}).

Definition setBASE (v : string) : M unit :=
  modifyOpenAPI (fun c => {| BASE := v; TOKEN := TOKEN c; VERSION := VERSION c |}).
Definition setTOKEN (v : string) : M unit :=
  modifyOpenAPI (fun c => {| BASE := BASE c; TOKEN := Some v; VERSION := VERSION c |}).
Definition setVERSION (v : string) : M unit :=
  modifyOpenAPI (fun c => {| BASE := BASE c; TOKEN := TOKEN c; VERSION := v |}).

(** The requests a computation adds to the trace from state [s]. *)
Definition issued {A : Type} (m : M A) (s : State) : list RemoteCall :=
  call <$> drop (length (trace s)) (trace (m s).2).

(** ** ConfluenceService (confluence-service.ts) *)

(** The class declares no instance fields: an instance carries nothing. *)
Inductive ConfluenceService : Type := ConfluenceServiceInstance.

(** [new ConfluenceService(host, token, fullApiUrl)] *)
Definition new_ConfluenceService
    (host : option string) (token : string) (fullApiUrl : option string)
  : M ConfluenceService :=
  _ ← match Js.whenGiven fullApiUrl with
      | Some url => setBASE url
      | None =>
          match Js.whenGiven host with
          | Some h => setBASE ("https://" +:+ h)
          | None => throw "Either host or fullApiUrl must be provided"
          end
      end;
  _ ← setTOKEN token;
  _ ← setVERSION "1.0";
  mret ConfluenceServiceInstance.

(** [process.env] *)
Abbreviation ProcessEnv := (gmap string string).

(** [ConfluenceService.validateConfig()], reading [process.env]. *)
Definition validateConfig (env : ProcessEnv) : list string :=
  let missingVars : list string := [] in
  let missingVars :=
    if negb (Js.given (env !! "CONFLUENCE_API_TOKEN"))
    then (missingVars ++ ["CONFLUENCE_API_TOKEN"])%list
    else missingVars in
  let missingVars :=
    if negb (Js.given (env !! "CONFLUENCE_HOST"))
       && negb (Js.given (env !! "CONFLUENCE_API_BASE_PATH"))
    then (missingVars ++ ["CONFLUENCE_HOST or CONFLUENCE_API_BASE_PATH"])%list
    else missingVars in
  missingVars.

(** The body wrapper [{ storage: { value, representation: 'storage' } }]. *)
Definition storageBody (text : Js.value) : Js.value :=
  Js.Obj [("storage", Js.Obj [("value", text); ("representation", Js.Str "storage")])].

Section Gateway.
Context `{Platform}.

(** Modelled from the spec: [handleApiOperation] of the common package,
    which is not among the sources.  It runs the operation once, never
    throws, and returns the envelope for the way the call settled.  The
    thunk [() => Service.op(args)] is the description of the call. *)
Definition handleApiOperation (operation : RemoteCall) (errorMessage : string)
  : M Envelope :=
  fun s =>
    let settled := remote (OpenAPI s) (trace s) operation in
    (Normal (envelopeOf errorMessage settled),
     {| OpenAPI := OpenAPI s;
        trace := (trace s ++ [{| config := OpenAPI s; call := operation |}])%list |}).

Definition getContent (this : ConfluenceService)
    (contentId : string) (expand : option string) : M Envelope :=
  let expandValue := Js.orElse expand "body.storage" in
  let finalExpand :=
    if Js.andThen expand (fun e => negb (Js.includes e "body.storage"))
    then Js.interp expand +:+ ",body.storage"
    else expandValue in
  handleApiOperation (GetContentById contentId finalExpand) "Error getting content".

Definition searchContent (this : ConfluenceService)
    (cql : string) (limit start : option Js.number) (expand : option string)
  : M Envelope :=
  handleApiOperation
    (Search1 expand (Js.optToString limit) (Js.optToString start) cql)
    "Error searching for content".

Definition createContent (this : ConfluenceService) (content : Js.value)
  : M Envelope :=
  handleApiOperation (CreateContent content) "Error creating content".

Definition updateContent (this : ConfluenceService)
    (contentId : string) (content : Js.value) : M Envelope :=
  handleApiOperation (Update2 contentId content) "Error updating content".

Definition deleteContent (this : ConfluenceService)
    (contentId : string) (status : option string) : M Envelope :=
  handleApiOperation (Delete3 contentId status) "Error deleting content".

Definition getPageChildren (this : ConfluenceService)
    (contentId : string) (limit start : option Js.number) (expand : option string)
  : M Envelope :=
  handleApiOperation
    (ChildrenOfType contentId "page" expand (Js.optToString limit) (Js.optToString start))
    "Error getting page children".

Definition getLabels (this : ConfluenceService)
    (contentId : string) (prefix : option string) (limit start : option Js.number)
  : M Envelope :=
  handleApiOperation
    (Labels contentId prefix (Js.optToString limit) (Js.optToString start))
    "Error getting labels".

Definition addLabel (this : ConfluenceService)
    (contentId labelName : string) (prefix : option string) : M Envelope :=
  let prefix := Js.defaultTo prefix "global" in
  handleApiOperation
    (AddLabels contentId (Js.Obj [("name", Js.Str labelName); ("prefix", Js.Str prefix)]))
    "Error adding label".

Definition getComments (this : ConfluenceService)
    (contentId : string) (limit start : option Js.number)
    (expand depth : option string) : M Envelope :=
  handleApiOperation
    (CommentsOfContent contentId (Js.orElse expand "body.view") depth
       (Js.optToString limit) (Js.optToString start))
    "Error getting comments".

Definition addComment (this : ConfluenceService)
    (contentId body : string) (parentCommentId : option string) : M Envelope :=
  let commentObj :=
    Js.Obj [("type", Js.Str "comment");
            ("container", Js.Obj [("id", Js.Str contentId); ("type", Js.Str "page")]);
            ("body", storageBody (Js.Str body))] in
  let commentObj :=
    if Js.given parentCommentId
    then Js.set commentObj "ancestors"
           (Js.Arr [Js.Obj [("id", Js.ofString parentCommentId)]])
    else commentObj in
  handleApiOperation (CreateContent commentObj) "Error adding comment".

Definition getAttachments (this : ConfluenceService)
    (contentId : string) (filename mediaType : option string)
    (limit start : option Js.number) (expand : option string) : M Envelope :=
  handleApiOperation
    (GetAttachments contentId expand filename
       (Js.optToString limit) (Js.optToString start) mediaType)
    "Error getting attachments".

Definition deleteAttachment (this : ConfluenceService)
    (contentId attachmentId : string) : M Envelope :=
  handleApiOperation (RemoveAttachment attachmentId contentId)
    "Error deleting attachment".

Definition searchSpaces (this : ConfluenceService)
    (searchText : string) (limit start : option Js.number) (expand : option string)
  : M Envelope :=
  let cql := "type=space AND title ~ " +:+ Js.dquote +:+ searchText +:+ Js.dquote in
  handleApiOperation
    (Search1 expand (Js.optToString limit) (Js.optToString start) cql)
    "Error searching for spaces".

(** ** Tool bindings (index.ts) *)

(** Start-up, lines 8 to 19: validate the environment, then build the one
    service instance.  Past the validation the token is a non-empty string,
    which is what the [!] assertion on it relies on. *)
Definition startup (env : ProcessEnv) : M ConfluenceService :=
  let missingEnvVars := validateConfig env in
  if bool_decide (0 < length missingEnvVars)%nat
  then throw ("Missing required environment variables: "
              +:+ String.concat ", " missingEnvVars)
  else new_ConfluenceService
         (if Js.given (env !! "CONFLUENCE_API_BASE_PATH")
          then None else env !! "CONFLUENCE_HOST")
         (Js.interp (env !! "CONFLUENCE_API_TOKEN"))
         (env !! "CONFLUENCE_API_BASE_PATH").

(** The handler of [confluence_createContent]. *)
Definition confluence_createContent (confluenceService : ConfluenceService)
    (title spaceKey : string) (type : option string) (content : string)
    (parentId : option string) : M ToolResponse :=
  let contentObj :=
    Js.Obj [("type", Js.Str (Js.orElse type "page"));
            ("title", Js.Str title);
            ("space", Js.Obj [("key", Js.Str spaceKey)]);
            ("body", storageBody (Js.Str content))] in
  let contentObj :=
    if Js.given parentId
    then Js.set contentObj "ancestors" (Js.Arr [Js.Obj [("id", Js.ofString parentId)]])
    else contentObj in
  result ← createContent confluenceService contentObj;
  mret (formatToolResponse result).

(** Lines 100 to 119 of the update handler: the object literal, then the
    conditional assignment of [body]. *)
Definition updateObjOf (contentId : string) (title content : option string)
    (version : Js.number) (versionComment : option string)
    (contentData : Js.value) : Js.value :=
  let updateObj :=
    Js.Obj [("id", Js.Str contentId);
            ("type", Js.get contentData "type");
            ("title", Js.or (Js.ofString title) (Js.get contentData "title"));
            ("space", Js.get contentData "space");
            ("version", Js.Obj [("number", Js.Num version);
                                ("message", Js.ofString versionComment)])] in
  if Js.given content
  then Js.set updateObj "body" (storageBody (Js.ofString content))
  else updateObj.

(** The handler of [confluence_updateContent]. *)
Definition confluence_updateContent (confluenceService : ConfluenceService)
    (contentId : string) (title content : option string)
    (version : Js.number) (versionComment : option string) : M ToolResponse :=
  currentContent ← getContent confluenceService contentId None;
  if negb (success currentContent) || negb (hasData currentContent)
  then
    mret (formatToolResponse
            {| success := false;
               data := None;
               error := Some ("Failed to retrieve content with ID " +:+ contentId
                              +:+ ": "
                              +:+ Js.orElse (error currentContent) "Unknown error") |})
  else
    let contentData := default Js.Undefined (data currentContent) in
    let updateObj :=
      updateObjOf contentId title content version versionComment contentData in
    result ← updateContent confluenceService contentId updateObj;
    mret (formatToolResponse result).

End Gateway.

(** Every gateway method with its arguments, for statements that range over
    all of them. *)
Inductive GatewayCall : Type :=
| CallGetContent (contentId : string) (expand : option string)
| CallSearchContent (cql : string) (limit start : option Js.number) (expand : option string)
| CallCreateContent (content : Js.value)
| CallUpdateContent (contentId : string) (content : Js.value)
| CallDeleteContent (contentId : string) (status : option string)
| CallGetPageChildren (contentId : string) (limit start : option Js.number) (expand : option string)
| CallGetLabels (contentId : string) (prefix : option string) (limit start : option Js.number)
| CallAddLabel (contentId labelName : string) (prefix : option string)
| CallGetComments (contentId : string) (limit start : option Js.number) (expand depth : option string)
| CallAddComment (contentId body : string) (parentCommentId : option string)
| CallGetAttachments (contentId : string) (filename mediaType : option string)
    (limit start : option Js.number) (expand : option string)
| CallDeleteAttachment (contentId attachmentId : string)
| CallSearchSpaces (searchText : string) (limit start : option Js.number) (expand : option string).

Definition perform `{Platform} (this : ConfluenceService) (c : GatewayCall) : M Envelope :=
  match c with
  | CallGetContent contentId expand => getContent this contentId expand
  | CallSearchContent cql limit start expand => searchContent this cql limit start expand
  | CallCreateContent content => createContent this content
  | CallUpdateContent contentId content => updateContent this contentId content
  | CallDeleteContent contentId status => deleteContent this contentId status
  | CallGetPageChildren contentId limit start expand =>
      getPageChildren this contentId limit start expand
  | CallGetLabels contentId prefix limit start => getLabels this contentId prefix limit start
  | CallAddLabel contentId labelName prefix => addLabel this contentId labelName prefix
  | CallGetComments contentId limit start expand depth =>
      getComments this contentId limit start expand depth
  | CallAddComment contentId body parentCommentId =>
      addComment this contentId body parentCommentId
  | CallGetAttachments contentId filename mediaType limit start expand =>
      getAttachments this contentId filename mediaType limit start expand
  | CallDeleteAttachment contentId attachmentId => deleteAttachment this contentId attachmentId
  | CallSearchSpaces searchText limit start expand =>
      searchSpaces this searchText limit start expand
  end.

(** The configurations under which a computation issues its requests. *)
Definition issuedUnder {A : Type} (m : M A) (s : State) : list OpenAPIConfig :=
  config <$> drop (length (trace s)) (trace (m s).2).

(** A run of gateway calls, each through some instance. *)
Fixpoint performEach `{Platform} (calls : list (ConfluenceService * GatewayCall))
  : M unit :=
  match calls with
  | [] => mret tt
  | (this, c) :: rest => _ ← perform this c; performEach rest
  end.

(** ** Readings of the specification, for comparison with the code *)

(** The expand rule as the specification words it: default when nothing is
    passed, suffix when the argument lacks [body.storage], unchanged
    otherwise. *)
Definition statedExpand (expand : option string) : string :=
  match expand with
  | None => "body.storage"
  | Some e => if Js.includes e "body.storage" then e else e +:+ ",body.storage"
  end.

(** The title rule as the specification words it: the caller's title, or
    the fetched one when the caller passed none. *)
Definition statedTitle (title : option string) (fetched : Js.value) : Js.value :=
  match title with
  | Some t => Js.Str t
  | None => Js.get fetched "title"
  end.

(** The ancestors rule as the specification words it. *)
Definition statedAncestors (parentCommentId : option string) : option Js.value :=
  match parentCommentId with
  | Some p => Some (Js.Arr [Js.Obj [("id", Js.Str p)]])
  | None => None
  end.

(** The base URL rule as the specification words it: a supplied full path
    is used verbatim, whatever the host. *)
Definition statedBase (host fullApiUrl : option string) : option string :=
  match fullApiUrl, host with
  | Some url, _ => Some url
  | None, Some h => Some ("https://" +:+ h)
  | None, None => None
  end.

(** The fields of a comma-separated list, as [e.split(',')] gives them. *)
Fixpoint commaFields (e : string) : list string :=
  match e with
  | EmptyString => [EmptyString]
  | String c rest =>
      if Ascii.eqb c ","%char then EmptyString :: commaFields rest
      else match commaFields rest with
           | [] => [String c EmptyString]
           | field :: fields => String c field :: fields
           end
  end.

(** ** Sample collaborators and inputs *)

(** A service that answers every fetch with [fetch] and anything else with
    an empty object; envelopes as the specification describes them; the
    response format is the envelope itself. *)
Definition scripted (fetch : Outcome) : Platform := {|
  ToolResponse := Envelope;
  remote := fun _ _ op =>
    match op with
    | GetContentById _ _ => fetch
    | _ => Resolved (Js.Obj [])
    end;
  envelopeOf := specEnvelope;
  formatToolResponse := fun e => e
|}.

Definition oldPage : Js.value :=
  Js.Obj [("type", Js.Str "page"); ("title", Js.Str "Old");
          ("space", Js.Obj [("key", Js.Str "X")])].

Definition configured : State := {|
  OpenAPI := {| BASE := "https://wiki.example.com"; TOKEN := Some "secret";
                VERSION := "1.0" |};
  trace := []
|}.

Definition unconfigured : State := {|
  OpenAPI := {| BASE := EmptyString; TOKEN := None; VERSION := EmptyString |};
  trace := []
|}.

(** [Object.keys(v)] *)
Definition objectKeys (v : Js.value) : list string :=
  match v with
  | Js.Obj props => props.*1
  | _ => []
  end.

(** [payload.body.storage.representation] *)
Definition bodyRepresentation (payload : Js.value) : Js.value :=
  Js.get (Js.get (Js.get payload "body") "storage") "representation".

(** * Properties *)

(** ** Strings and values *)

Lemma isEmpty_true (s : string) : Js.isEmpty s = true <-> s = EmptyString.
Proof. destruct s; simpl; split; congruence. Qed.

Lemma isEmpty_false (s : string) : Js.isEmpty s = false <-> s <> EmptyString.
Proof. destruct s; simpl; split; congruence. Qed.

Lemma append_cons (c : ascii) (s t : string) :
  String c s +:+ t = String c (s +:+ t).
Proof. reflexivity. Qed.

Lemma append_nil_r (s : string) : s +:+ EmptyString = s.
Proof. induction s as [|c s IH]; [done|]. by rewrite append_cons, IH. Qed.

Lemma append_assoc (s t u : string) : s +:+ t +:+ u = (s +:+ t) +:+ u.
Proof. induction s as [|c s IH]; [done|]. by rewrite !append_cons, IH. Qed.

Lemma length_append (s t : string) :
  String.length (s +:+ t) = (String.length s + String.length t)%nat.
Proof. induction s as [|c s IH]; [done|]. rewrite append_cons. simpl. by rewrite IH. Qed.

Lemma startsWith_spec (s p : string) :
  Js.startsWith s p = true <-> exists rest, s = p +:+ rest.
Proof.
  revert s. induction p as [|b p IH]; intros s; simpl.
  - split; [intros _; by exists s | by destruct s].
  - destruct s as [|a s]; simpl.
    + split; [done | intros [rest Hrest]; discriminate].
    + destruct (Ascii.eqb_spec a b) as [->|Hab].
      * rewrite IH.
        split; intros [rest Hrest]; exists rest;
          rewrite append_cons in *; congruence.
      * split; [done | intros [rest Hrest]; rewrite append_cons in *; congruence].
Qed.

Lemma includes_nil (sub : string) :
  Js.includes EmptyString sub = Js.startsWith EmptyString sub.
Proof. unfold Js.includes. apply orb_false_r. Qed.

Lemma includes_cons (c : ascii) (s sub : string) :
  Js.includes (String c s) sub
  = Js.startsWith (String c s) sub || Js.includes s sub.
Proof. reflexivity. Qed.

(** [includes] is substring containment. *)
Lemma includes_spec (s sub : string) :
  Js.includes s sub = true <-> exists pre post, s = pre +:+ sub +:+ post.
Proof.
  split.
  - induction s as [|c s IH].
    + rewrite includes_nil. intros Hs.
      apply startsWith_spec in Hs as [rest ->]. by exists EmptyString, rest.
    + rewrite includes_cons, orb_true_iff. intros [Hs|Hi].
      * apply startsWith_spec in Hs as [rest ->]. by exists EmptyString, rest.
      * destruct (IH Hi) as (pre & post & ->). by exists (String c pre), post.
  - intros (pre & post & ->). induction pre as [|c pre IH].
    + assert (Js.startsWith (sub +:+ post) sub = true) as Hs
        by (apply startsWith_spec; by exists post).
      change (EmptyString +:+ sub +:+ post) with (sub +:+ post).
      destruct (sub +:+ post).
      * by rewrite includes_nil.
      * by rewrite includes_cons, Hs.
    + rewrite append_cons, includes_cons, IH. apply orb_true_r.
Qed.

Lemma includes_startsWith (s sub : string) :
  Js.startsWith s sub = true -> Js.includes s sub = true.
Proof.
  intros Hs. destruct s; [by rewrite includes_nil | by rewrite includes_cons, Hs].
Qed.

Lemma includes_middle (pre sub post : string) :
  Js.includes (pre +:+ sub +:+ post) sub = true.
Proof. apply includes_spec. by exists pre, post. Qed.

Lemma includes_suffix (pre sub : string) : Js.includes (pre +:+ sub) sub = true.
Proof.
  apply includes_spec. exists pre, EmptyString. by rewrite append_nil_r.
Qed.

Lemma includes_empty (s : string) : Js.includes s EmptyString = true.
Proof. apply includes_spec. by exists EmptyString, s. Qed.

Lemma whenGiven_Some (o : option string) (s : string) :
  Js.whenGiven o = Some s <-> o = Some s /\ s <> EmptyString.
Proof.
  destruct o as [[|c t]|]; simpl; split; try done.
  - intros [[= <-] ?]. done.
  - intros [= <-]. done.
  - intros [[= <-] ?]. done.
  - intros [? ?]. done.
Qed.

Lemma given_false (o : option string) :
  Js.given o = false <-> o = None \/ o = Some EmptyString.
Proof.
  destruct o as [[|c t]|]; simpl; split; try done; auto.
  intros [?|?]; done.
Qed.

Lemma given_true (o : option string) :
  Js.given o = true <-> exists s, o = Some s /\ s <> EmptyString.
Proof.
  destruct o as [[|c t]|]; simpl; split; try done.
  - intros (s & [= <-] & ?). done.
  - intros _. by eexists.
  - intros (s & ? & ?). done.
Qed.

(** ** One request per gateway method *)

Section GatewayFacts.
Context `{Platform}.

Lemma handleApiOperation_run (operation : RemoteCall) (label : string) (s : State) :
  handleApiOperation operation label s
  = (Normal (envelopeOf label (remote (OpenAPI s) (trace s) operation)),
     {| OpenAPI := OpenAPI s;
        trace := (trace s ++ [{| config := OpenAPI s; call := operation |}])%list |}).
Proof. reflexivity. Qed.

Lemma issued_handleApiOperation (operation : RemoteCall) (label : string) (s : State) :
  issued (handleApiOperation operation label) s = [operation].
Proof. unfold issued. simpl. by rewrite drop_app_length. Qed.

Lemma issuedUnder_handleApiOperation (operation : RemoteCall) (label : string) (s : State) :
  issuedUnder (handleApiOperation operation label) s = [OpenAPI s].
Proof. unfold issuedUnder. simpl. by rewrite drop_app_length. Qed.

(** With [handleApiOperation] as modelled, no gateway method throws. *)
Lemma perform_returns (this : ConfluenceService) (c : GatewayCall) (s : State) :
  exists envelope s', perform this c s = (Normal envelope, s').
Proof. destruct c; simpl; by do 2 eexists. Qed.

(** The effective expand value, case by case. *)
Lemma getContent_request (this : ConfluenceService) (contentId : string)
    (expand : option string) (s : State) :
  issued (getContent this contentId expand) s
  = [GetContentById contentId
       (match expand with
        | None => "body.storage"
        | Some e =>
            if Js.isEmpty e then "body.storage"
            else if Js.includes e "body.storage" then e
                 else e +:+ ",body.storage"
        end)].
Proof.
  unfold getContent. rewrite issued_handleApiOperation.
  destruct expand as [e|]; simpl; [|done].
  destruct (Js.isEmpty e); simpl; [done|].
  by destruct (Js.includes e "body.storage").
Qed.

(** C3, as amended: with no expand argument the remote operation receives
    exactly [body.storage]; with a non-empty argument that does not contain
    [body.storage] it receives the argument followed by [,body.storage];
    with an argument that contains [body.storage] it receives the argument
    unchanged. *)
Theorem getContent_effective_expand (this : ConfluenceService)
    (contentId : string) (s : State) :
  issued (getContent this contentId None) s
    = [GetContentById contentId "body.storage"]
  /\ (forall e : string,
        e <> EmptyString -> Js.includes e "body.storage" = false ->
        issued (getContent this contentId (Some e)) s
          = [GetContentById contentId (e +:+ ",body.storage")])
  /\ (forall e : string,
        Js.includes e "body.storage" = true ->
        issued (getContent this contentId (Some e)) s
          = [GetContentById contentId e]).
Proof.
  split; [|split].
  - apply getContent_request.
  - intros e Hne Hinc. rewrite getContent_request.
    apply isEmpty_false in Hne. by rewrite Hne, Hinc.
  - intros e Hinc. rewrite getContent_request, Hinc.
    destruct e; [discriminate Hinc | done].
Qed.

(** C9: the test is substring containment.  An argument with
    [body.storage] anywhere inside it, even inside a longer field name as
    in [abody.storagex], which has no field equal to [body.storage], is
    passed through unchanged; the empty string is treated as no argument
    and gives exactly [body.storage]. *)
Theorem getContent_expand_is_substring_test (this : ConfluenceService)
    (contentId : string) (s : State) :
  (forall pre post : string,
     issued (getContent this contentId (Some (pre +:+ "body.storage" +:+ post))) s
       = [GetContentById contentId (pre +:+ "body.storage" +:+ post)])
  /\ ("body.storage" ∉ commaFields "abody.storagex")
  /\ issued (getContent this contentId (Some "abody.storagex")) s
       = [GetContentById contentId "abody.storagex"]
  /\ issued (getContent this contentId (Some EmptyString)) s
       = [GetContentById contentId "body.storage"]
  /\ (issued (getContent this contentId (Some EmptyString)) s
       <> [GetContentById contentId ",body.storage"]).
Proof.
  split; [|split; [|split; [|split]]].
  - intros pre post. rewrite getContent_request, includes_middle.
    by destruct pre.
  - simpl. rewrite list_elem_of_singleton. discriminate.
  - by rewrite getContent_request.
  - by rewrite getContent_request.
  - rewrite getContent_request. simpl. intros [=].
Qed.

(** C4: [searchSpaces] sends the query [type=space AND title ~ "T"], with
    the text placed between the quotes as it is, through [search1], the
    operation [searchContent] uses: it issues the very request that
    [searchContent] issues for that query. *)
Theorem searchSpaces_cql (this : ConfluenceService) (searchText : string)
    (limit start : option Js.number) (expand : option string) (s : State) :
  let cql := Js.concat ["type=space AND title ~ "; Js.dquote; searchText; Js.dquote] in
  issued (searchSpaces this searchText limit start expand) s
    = [Search1 expand (Js.toString <$> limit) (Js.toString <$> start) cql]
  /\ issued (searchSpaces this searchText limit start expand) s
     = issued (searchContent this cql limit start expand) s
  /\ String.length cql = (25 + String.length searchText)%nat.
Proof.
  simpl. unfold searchSpaces, searchContent.
  rewrite !issued_handleApiOperation.
  rewrite append_nil_r. repeat split.
  simpl. rewrite !length_append. simpl. lia.
Qed.

(** C8: without a prefix [addLabel] sends the pair
    [{name: labelName, prefix: "global"}]; with a prefix it sends that
    prefix, whatever it is. *)
Theorem addLabel_prefix (this : ConfluenceService) (contentId labelName : string)
    (s : State) :
  issued (addLabel this contentId labelName None) s
    = [AddLabels contentId
         (Js.Obj [("name", Js.Str labelName); ("prefix", Js.Str "global")])]
  /\ (forall prefix : string,
        exists payload : Js.value,
          issued (addLabel this contentId labelName (Some prefix)) s
            = [AddLabels contentId payload]
          /\ Js.get payload "name" = Js.Str labelName
          /\ Js.get payload "prefix" = Js.Str prefix).
Proof.
  unfold addLabel. split.
  - by rewrite issued_handleApiOperation.
  - intros prefix. eexists. rewrite issued_handleApiOperation. by split.
Qed.

(** C5, as amended: [addComment] passes to the generic create operation a
    payload with type [comment], container [{id: contentId, type: "page"}]
    and the body in storage representation; when [parentCommentId] is a
    non-empty string the payload's ancestors are [[{id: parentCommentId}]];
    when it is absent or the empty string the payload has no ancestors
    property. *)
Theorem addComment_payload (this : ConfluenceService) (contentId body : string)
    (parentCommentId : option string) (s : State) :
  exists payload : Js.value,
    issued (addComment this contentId body parentCommentId) s = [CreateContent payload]
    /\ Js.get payload "type" = Js.Str "comment"
    /\ Js.get payload "container"
        = Js.Obj [("id", Js.Str contentId); ("type", Js.Str "page")]
    /\ Js.get payload "body"
        = Js.Obj [("storage", Js.Obj [("value", Js.Str body);
                                      ("representation", Js.Str "storage")])]
    /\ (forall p : string,
          parentCommentId = Some p -> p <> EmptyString ->
          Js.get payload "ancestors" = Js.Arr [Js.Obj [("id", Js.Str p)]])
    /\ (parentCommentId = None \/ parentCommentId = Some EmptyString ->
        Js.has payload "ancestors" = false).
Proof.
  unfold addComment. eexists. rewrite issued_handleApiOperation.
  split; [reflexivity|].
  destruct parentCommentId as [[|c t]|]; simpl; repeat split; try done.
  - intros p [= <-] Hp. done.
  - intros p [= <-] _. done.
  - intros [?|?]; done.
Qed.

(** The fetch made by the update handler is [getContent] with no expand
    argument: one request, state otherwise untouched. *)
Lemma getContent_run (this : ConfluenceService) (contentId : string)
    (expand : option string) (s : State) (envelope : Envelope) (s1 : State) :
  getContent this contentId expand s = (Normal envelope, s1) ->
  exists finalExpand : string,
    issued (getContent this contentId expand) s = [GetContentById contentId finalExpand]
    /\ OpenAPI s1 = OpenAPI s
    /\ trace s1 = (trace s ++ [{| config := OpenAPI s;
                                  call := GetContentById contentId finalExpand |}])%list.
Proof.
  unfold getContent. rewrite handleApiOperation_run, issued_handleApiOperation.
  intros [= _ <-]. eexists. by repeat split.
Qed.

(** C2: when the fetch comes back with [success = false] or without data,
    the handler answers with the failure envelope whose message is
    [Failed to retrieve content with ID <contentId>: <error>], the fetch
    error being replaced by [Unknown error] when there is none, and the
    only request issued is the fetch: no update is sent. *)
Theorem updateContent_tool_fetch_failure (confluenceService : ConfluenceService)
    (contentId : string) (title content : option string) (version : Js.number)
    (versionComment : option string) (s : State)
    (currentContent : Envelope) (s1 : State) :
  getContent confluenceService contentId None s = (Normal currentContent, s1) ->
  success currentContent = false \/ hasData currentContent = false ->
  exists message : string,
    confluence_updateContent confluenceService contentId title content
      version versionComment s
    = (Normal (formatToolResponse
                 {| success := false; data := None; error := Some message |}), s1)
    /\ Js.includes message "Failed to retrieve content" = true
    /\ Js.includes message contentId = true
    /\ (forall e : string, error currentContent = Some e -> Js.includes message e = true)
    /\ issued (confluence_updateContent confluenceService contentId title content
                 version versionComment) s
       = [GetContentById contentId "body.storage"]
    /\ (forall id payload,
          Update2 id payload
          ∉ issued (confluence_updateContent confluenceService contentId title
                      content version versionComment) s).
Proof.
  intros Hfetch Hfail.
  assert (negb (success currentContent) || negb (hasData currentContent) = true)
    as Hcond by (destruct Hfail as [-> | ->]; [done | apply orb_true_r]).
  assert (confluence_updateContent confluenceService contentId title content
            version versionComment s
          = (Normal (formatToolResponse
               {| success := false; data := None;
                  error := Some ("Failed to retrieve content with ID " +:+ contentId
                                 +:+ ": "
                                 +:+ Js.orElse (error currentContent) "Unknown error") |}),
             s1)) as Hrun.
  { unfold confluence_updateContent, mbind, M_bind. by rewrite Hfetch, Hcond. }
  assert (issued (confluence_updateContent confluenceService contentId title content
                    version versionComment) s
          = [GetContentById contentId "body.storage"]) as Hissued.
  { unfold issued. rewrite Hrun. simpl.
    pose proof (getContent_request confluenceService contentId None s) as Hi.
    unfold issued in Hi. by rewrite Hfetch in Hi. }
  eexists. split; [exact Hrun|].
  split; [|split; [|split; [|split]]].
  - apply includes_startsWith. reflexivity.
  - apply (includes_middle "Failed to retrieve content with ID ").
  - intros e He. rewrite He.
    destruct e as [|c e]; [apply includes_empty|].
    change (Js.orElse (Some (String c e)) "Unknown error") with (String c e).
    rewrite !append_assoc. apply includes_suffix.
  - exact Hissued.
  - intros id payload. rewrite Hissued, list_elem_of_singleton. discriminate.
Qed.

(** What [updateObjOf] holds, property by property. *)
Lemma updateObjOf_props (contentId : string) (title content : option string)
    (version : Js.number) (versionComment : option string) (contentData : Js.value) :
  let payload := updateObjOf contentId title content version versionComment contentData in
  Js.get payload "id" = Js.Str contentId
  /\ Js.get payload "type" = Js.get contentData "type"
  /\ Js.get payload "title"
      = match Js.whenGiven title with
        | Some t => Js.Str t
        | None => Js.get contentData "title"
        end
  /\ Js.get payload "space" = Js.get contentData "space"
  /\ Js.get payload "version"
      = Js.Obj [("number", Js.Num version); ("message", Js.ofString versionComment)]
  /\ match Js.whenGiven content with
     | Some c => Js.get payload "body" = storageBody (Js.Str c)
     | None => Js.has payload "body" = false
     end.
Proof.
  unfold updateObjOf.
  destruct content as [[|c0 c]|], title as [[|t0 t]|]; simpl; by repeat split.
Qed.

(** C1, as amended: when the fetch succeeds with data, the handler issues
    the fetch and then one update whose payload has: the caller's title
    when it is a non-empty string, otherwise the fetched title; type and
    space read from the fetched data; version
    [{number: version, message: versionComment}] from the caller alone; and
    a body, the content text in storage representation, exactly when the
    caller's content is a non-empty string, no body property otherwise. *)
Theorem updateContent_tool_payload (confluenceService : ConfluenceService)
    (contentId : string) (title content : option string) (version : Js.number)
    (versionComment : option string) (s : State)
    (currentContent : Envelope) (s1 : State) (contentData : Js.value) :
  getContent confluenceService contentId None s = (Normal currentContent, s1) ->
  success currentContent = true ->
  data currentContent = Some contentData ->
  Js.truthy contentData = true ->
  exists payload : Js.value,
    issued (confluence_updateContent confluenceService contentId title content
              version versionComment) s
    = [GetContentById contentId "body.storage"; Update2 contentId payload]
    /\ Js.get payload "id" = Js.Str contentId
    /\ Js.get payload "type" = Js.get contentData "type"
    /\ Js.get payload "title"
        = match Js.whenGiven title with
          | Some t => Js.Str t
          | None => Js.get contentData "title"
          end
    /\ Js.get payload "space" = Js.get contentData "space"
    /\ Js.get payload "version"
        = Js.Obj [("number", Js.Num version); ("message", Js.ofString versionComment)]
    /\ match Js.whenGiven content with
       | Some c => Js.get payload "body" = storageBody (Js.Str c)
       | None => Js.has payload "body" = false
       end.
Proof.
  intros Hfetch Hsuccess Hdata Htruthy.
  exists (updateObjOf contentId title content version versionComment contentData).
  split; [|apply updateObjOf_props].
  assert (negb (success currentContent) || negb (hasData currentContent) = false)
    as Hcond by (unfold hasData; by rewrite Hsuccess, Hdata, Htruthy).
  destruct (getContent_run _ _ _ _ _ _ Hfetch) as (fe & Hfe & _ & Htrace).
  rewrite getContent_request in Hfe. injection Hfe as <-.
  unfold issued, confluence_updateContent, mbind, M_bind.
  rewrite Hfetch, Hcond, Hdata. unfold updateContent. rewrite handleApiOperation_run.
  simpl. by rewrite Htrace, <- app_assoc, drop_app_length.
Qed.

(** The requests of every gateway method go out under the configuration
    held by [OpenAPI] when the method is called, and leave it as it is. *)
Lemma perform_under_current_config (this : ConfluenceService) (c : GatewayCall)
    (s : State) :
  issuedUnder (perform this c) s = [OpenAPI s]
  /\ OpenAPI (perform this c s).2 = OpenAPI s.
Proof.
  destruct c; simpl;
    (split; [apply issuedUnder_handleApiOperation | reflexivity]).
Qed.

End GatewayFacts.

(** ** Construction and configuration *)

Lemma new_ConfluenceService_run (host : option string) (token : string)
    (fullApiUrl : option string) (s : State) :
  new_ConfluenceService host token fullApiUrl s
  = match Js.whenGiven fullApiUrl, Js.whenGiven host with
    | Some url, _ =>
        (Normal ConfluenceServiceInstance,
         {| OpenAPI := {| BASE := url; TOKEN := Some token; VERSION := "1.0" |};
            trace := trace s |})
    | None, Some h =>
        (Normal ConfluenceServiceInstance,
         {| OpenAPI := {| BASE := "https://" +:+ h; TOKEN := Some token;
                          VERSION := "1.0" |};
            trace := trace s |})
    | None, None => (Thrown "Either host or fullApiUrl must be provided", s)
    end.
Proof.
  unfold new_ConfluenceService, mbind, M_bind.
  by destruct (Js.whenGiven fullApiUrl), (Js.whenGiven host).
Qed.

Lemma whenGiven_None (o : option string) :
  Js.whenGiven o = None <-> Js.given o = false.
Proof. by destruct o as [[|c t]|]. Qed.

(** C6, as amended: construction throws the configuration error exactly
    when neither the host nor the full API URL is a non-empty string, and
    then changes nothing; a non-empty full API URL becomes the base URL as
    it is, whatever the host; with the full API URL absent or empty, a
    non-empty host [h] gives the base URL [https://h]. *)
Theorem constructor_contract (host : option string) (token : string)
    (fullApiUrl : option string) (s : State) :
  ((exists message s', new_ConfluenceService host token fullApiUrl s = (Thrown message, s'))
   <-> Js.given host = false /\ Js.given fullApiUrl = false)
  /\ (Js.given host = false -> Js.given fullApiUrl = false ->
      new_ConfluenceService host token fullApiUrl s
      = (Thrown "Either host or fullApiUrl must be provided", s))
  /\ (forall url : string,
        fullApiUrl = Some url -> url <> EmptyString ->
        exists s', new_ConfluenceService host token fullApiUrl s
                   = (Normal ConfluenceServiceInstance, s')
                   /\ BASE (OpenAPI s') = url)
  /\ (forall h : string,
        Js.given fullApiUrl = false -> host = Some h -> h <> EmptyString ->
        exists s', new_ConfluenceService host token fullApiUrl s
                   = (Normal ConfluenceServiceInstance, s')
                   /\ BASE (OpenAPI s') = "https://" +:+ h).
Proof.
  rewrite new_ConfluenceService_run.
  split; [|split; [|split]].
  - rewrite <- !whenGiven_None.
    destruct (Js.whenGiven fullApiUrl), (Js.whenGiven host); split;
      try (by intros (? & ? & [=])); try (by intros [[=] [=]]).
    intros _. by do 2 eexists.
  - intros Hh Hf. apply whenGiven_None in Hh, Hf. by rewrite Hh, Hf.
  - intros url Hf Hne.
    assert (Js.whenGiven fullApiUrl = Some url) as -> by by apply whenGiven_Some.
    by eexists.
  - intros h Hf Hh Hne. apply whenGiven_None in Hf.
    assert (Js.whenGiven host = Some h) as -> by by apply whenGiven_Some.
    rewrite Hf. by eexists.
Qed.

(** C7, as amended: [validateConfig] returns a list (it cannot throw); on
    an empty environment the list holds the token entry and the
    host-or-base-path entry; the token entry is present whenever the token
    is unset, and exactly when it is unset or empty; the host-or-base-path
    entry is present exactly when both the host and the base path are unset
    or empty; the list is empty exactly when the token is non-empty and the
    host or the base path is non-empty. *)
Theorem validateConfig_missing (env : ProcessEnv) :
  validateConfig ∅
    = ["CONFLUENCE_API_TOKEN"; "CONFLUENCE_HOST or CONFLUENCE_API_BASE_PATH"]
  /\ (env !! "CONFLUENCE_API_TOKEN" = None ->
      "CONFLUENCE_API_TOKEN" ∈ validateConfig env)
  /\ ("CONFLUENCE_API_TOKEN" ∈ validateConfig env
      <-> Js.given (env !! "CONFLUENCE_API_TOKEN") = false)
  /\ ("CONFLUENCE_HOST or CONFLUENCE_API_BASE_PATH" ∈ validateConfig env
      <-> Js.given (env !! "CONFLUENCE_HOST") = false
          /\ Js.given (env !! "CONFLUENCE_API_BASE_PATH") = false)
  /\ (validateConfig env = []
      <-> Js.given (env !! "CONFLUENCE_API_TOKEN") = true
          /\ (Js.given (env !! "CONFLUENCE_HOST") = true
              \/ Js.given (env !! "CONFLUENCE_API_BASE_PATH") = true)).
Proof.
  split; [reflexivity|].
  unfold validateConfig.
  split.
  { intros ->. simpl. destruct (_ && _); rewrite !elem_of_cons; by left. }
  destruct (Js.given (env !! "CONFLUENCE_API_TOKEN")),
           (Js.given (env !! "CONFLUENCE_HOST")),
           (Js.given (env !! "CONFLUENCE_API_BASE_PATH")); simpl;
    rewrite ?elem_of_cons, ?elem_of_nil; intuition congruence.
Qed.

(** What a successful construction leaves in [OpenAPI]. *)
Lemma new_ConfluenceService_config (host : option string) (token : string)
    (fullApiUrl : option string) (s s' : State) (instance : ConfluenceService) :
  new_ConfluenceService host token fullApiUrl s = (Normal instance, s') ->
  OpenAPI s'
  = {| BASE := match Js.whenGiven fullApiUrl with
               | Some url => url
               | None => "https://" +:+ Js.interp host
               end;
       TOKEN := Some token;
       VERSION := "1.0" |}.
Proof.
  rewrite new_ConfluenceService_run.
  destruct (Js.whenGiven fullApiUrl) as [url|].
  - by intros [= _ <-].
  - destruct (Js.whenGiven host) as [h|] eqn:Hh; [|done].
    intros [= _ <-]. by apply whenGiven_Some in Hh as [-> _].
Qed.

(** ** One configuration for every instance *)

Section SharedConfiguration.
Context `{Platform}.

Lemma perform_request (this : ConfluenceService) (c : GatewayCall) :
  exists operation label, perform this c = handleApiOperation operation label.
Proof. destruct c; simpl; by do 2 eexists. Qed.

Lemma performEach_run (calls : list (ConfluenceService * GatewayCall)) (s : State) :
  exists operations : list RemoteCall,
    length operations = length calls
    /\ performEach calls s
       = (Normal tt,
          {| OpenAPI := OpenAPI s;
             trace := (trace s
                       ++ ((fun op => {| config := OpenAPI s; call := op |})
                             <$> operations))%list |}).
Proof.
  revert s. induction calls as [|[this c] rest IH]; intros s.
  - exists []. split; [done|]. simpl. rewrite app_nil_r. by destruct s.
  - destruct (perform_request this c) as (op & label & Hop).
    destruct (IH {| OpenAPI := OpenAPI s;
                    trace := (trace s ++ [{| config := OpenAPI s; call := op |}])%list |})
      as (ops & Hlen & Hrun).
    exists (op :: ops). split; [simpl; by rewrite Hlen|].
    simpl. unfold mbind, M_bind. rewrite Hop, handleApiOperation_run, Hrun.
    simpl. by rewrite <- app_assoc.
Qed.

Lemma performEach_under_current_config
    (calls : list (ConfluenceService * GatewayCall)) (s : State) :
  issuedUnder (performEach calls) s = replicate (length calls) (OpenAPI s).
Proof.
  destruct (performEach_run calls s) as (ops & Hlen & Hrun).
  unfold issuedUnder. rewrite Hrun. simpl. rewrite drop_app_length, <- Hlen.
  clear. induction ops as [|op ops IH]; [done|]. simpl. f_equal. apply IH.
Qed.

(** C10: the constructor writes the base URL, the token and the API
    version into the one [OpenAPI] object and an instance holds nothing.
    After two constructions the object holds what the second one wrote,
    whatever the first was given; the two instances are interchangeable;
    a request through the first instance went out under the first
    configuration before the second construction and goes out under the
    second one after it, as does every later request of every gateway
    method through either instance. *)
Theorem constructor_overwrites_shared_config
    (host1 : option string) (token1 : string) (fullApiUrl1 : option string)
    (host2 : option string) (token2 : string) (fullApiUrl2 : option string)
    (s s1 s2 : State) (first second : ConfluenceService) :
  new_ConfluenceService host1 token1 fullApiUrl1 s = (Normal first, s1) ->
  new_ConfluenceService host2 token2 fullApiUrl2 s1 = (Normal second, s2) ->
  let written (host : option string) (token : string) (fullApiUrl : option string) :=
    {| BASE := match Js.whenGiven fullApiUrl with
               | Some url => url
               | None => "https://" +:+ Js.interp host
               end;
       TOKEN := Some token;
       VERSION := "1.0" |} in
  first = second
  /\ OpenAPI s1 = written host1 token1 fullApiUrl1
  /\ OpenAPI s2 = written host2 token2 fullApiUrl2
  /\ (forall c : GatewayCall,
        issuedUnder (perform first c) s1 = [written host1 token1 fullApiUrl1]
        /\ issuedUnder (perform first c) s2 = [written host2 token2 fullApiUrl2])
  /\ (forall calls : list (ConfluenceService * GatewayCall),
        issuedUnder (performEach calls) s2
        = replicate (length calls) (written host2 token2 fullApiUrl2)).
Proof.
  intros Hfirst Hsecond written.
  apply new_ConfluenceService_config in Hfirst, Hsecond.
  fold (written host1 token1 fullApiUrl1) in Hfirst.
  fold (written host2 token2 fullApiUrl2) in Hsecond.
  split; [by destruct first, second|]. split; [done|]. split; [done|]. split.
  - intros c. rewrite <- Hfirst, <- Hsecond.
    split; apply perform_under_current_config.
  - intros calls. rewrite <- Hsecond. apply performEach_under_current_config.
Qed.

End SharedConfiguration.

(** ** The properties at sample inputs *)

(** The update example of the specification: fetched page
    [{type: "page", title: "Old", space: {key: "X"}}], no new title, new
    content, version 5 with comment [c]. *)
Lemma updateContent_tool_payload_sample :
  exists payload : Js.value,
    issued (confluence_updateContent (H := scripted (Resolved oldPage))
              ConfluenceServiceInstance "123" None (Some "<p>new</p>") 5 (Some "c"))
      configured
    = [GetContentById "123" "body.storage"; Update2 "123" payload]
    /\ Js.get payload "type" = Js.Str "page"
    /\ Js.get payload "title" = Js.Str "Old"
    /\ Js.get payload "space" = Js.Obj [("key", Js.Str "X")]
    /\ Js.get payload "version" = Js.Obj [("number", Js.Num 5); ("message", Js.Str "c")]
    /\ Js.get payload "body" = storageBody (Js.Str "<p>new</p>").
Proof.
  destruct (updateContent_tool_payload (H := scripted (Resolved oldPage))
              ConfluenceServiceInstance "123" None (Some "<p>new</p>") 5 (Some "c")
              configured _ _ oldPage eq_refl eq_refl eq_refl eq_refl)
    as (payload & Hissued & _ & Htype & Htitle & Hspace & Hversion & Hbody).
  exists payload. repeat split; assumption.
Defined.

(** The failing-fetch example of the specification: the fetch is rejected
    with [boom]. *)
Lemma updateContent_tool_fetch_failure_sample :
  exists message : string,
    (confluence_updateContent (H := scripted (Rejected "boom"))
       ConfluenceServiceInstance "123" None (Some "<p>new</p>") 5 (Some "c")
       configured).1
    = Normal {| success := false; data := None; error := Some message |}
    /\ Js.includes message "Failed to retrieve content" = true
    /\ Js.includes message "123" = true
    /\ Js.includes message "boom" = true
    /\ issued (confluence_updateContent (H := scripted (Rejected "boom"))
                 ConfluenceServiceInstance "123" None (Some "<p>new</p>") 5 (Some "c"))
         configured
       = [GetContentById "123" "body.storage"].
Proof.
  destruct (updateContent_tool_fetch_failure (H := scripted (Rejected "boom"))
              ConfluenceServiceInstance "123" None (Some "<p>new</p>") 5 (Some "c")
              configured _ _ eq_refl (or_introl eq_refl))
    as (message & Hrun & Hfailed & Hid & Herror & Hissued & _).
  exists message. split; [by rewrite Hrun|].
  split; [exact Hfailed|]. split; [exact Hid|].
  split; [exact (Herror "boom" eq_refl) | exact Hissued].
Defined.

Lemma getContent_effective_expand_sample :
  issued (getContent (H := scripted (Resolved oldPage))
            ConfluenceServiceInstance "123" (Some "version")) configured
    = [GetContentById "123" "version,body.storage"]
  /\ issued (getContent (H := scripted (Resolved oldPage))
               ConfluenceServiceInstance "123" (Some "version,body.storage")) configured
     = [GetContentById "123" "version,body.storage"].
Proof.
  destruct (getContent_effective_expand (H := scripted (Resolved oldPage))
              ConfluenceServiceInstance "123" configured) as (_ & Happend & Hkeep).
  split.
  - apply (Happend "version"); [discriminate | reflexivity].
  - apply (Hkeep "version,body.storage"). reflexivity.
Defined.

Lemma addComment_payload_sample :
  exists payload : Js.value,
    issued (addComment (H := scripted (Resolved oldPage))
              ConfluenceServiceInstance "123" "<p>hi</p>" (Some "77")) configured
    = [CreateContent payload]
    /\ Js.get payload "ancestors" = Js.Arr [Js.Obj [("id", Js.Str "77")]].
Proof.
  destruct (addComment_payload (H := scripted (Resolved oldPage))
              ConfluenceServiceInstance "123" "<p>hi</p>" (Some "77") configured)
    as (payload & Hissued & _ & _ & _ & Hreply & _).
  exists payload. split; [exact Hissued|].
  apply (Hreply "77"); [reflexivity | discriminate].
Defined.

Lemma constructor_contract_sample :
  (exists s', new_ConfluenceService (Some "ignored.example.com") "secret"
                (Some "https://wiki.example.com/confluence") unconfigured
              = (Normal ConfluenceServiceInstance, s')
              /\ BASE (OpenAPI s') = "https://wiki.example.com/confluence")
  /\ new_ConfluenceService None "secret" None unconfigured
     = (Thrown "Either host or fullApiUrl must be provided", unconfigured).
Proof.
  destruct (constructor_contract (Some "ignored.example.com") "secret"
              (Some "https://wiki.example.com/confluence") unconfigured)
    as (_ & _ & Hfull & _).
  destruct (constructor_contract None "secret" None unconfigured)
    as (_ & Hthrow & _ & _).
  split.
  - apply Hfull; [reflexivity | discriminate].
  - apply Hthrow; reflexivity.
Defined.

Lemma validateConfig_missing_sample :
  "CONFLUENCE_API_TOKEN"
  ∈ validateConfig ({["CONFLUENCE_HOST" := "wiki.example.com"]} : ProcessEnv).
Proof.
  destruct (validateConfig_missing {["CONFLUENCE_HOST" := "wiki.example.com"]})
    as (_ & Hunset & _).
  apply Hunset. reflexivity.
Defined.

Lemma constructor_overwrites_shared_config_sample :
  let s1 := (new_ConfluenceService (Some "first.example.com") "token-1" None
               unconfigured).2 in
  let s2 := (new_ConfluenceService (Some "second.example.com") "token-2" None s1).2 in
  let fetch :=
    perform (H := scripted (Resolved oldPage)) ConfluenceServiceInstance
      (CallGetContent "123" None) in
  issuedUnder fetch s1
    = [{| BASE := "https://first.example.com"; TOKEN := Some "token-1";
          VERSION := "1.0" |}]
  /\ issuedUnder fetch s2
     = [{| BASE := "https://second.example.com"; TOKEN := Some "token-2";
           VERSION := "1.0" |}].
Proof.
  destruct (constructor_overwrites_shared_config (H := scripted (Resolved oldPage))
              (Some "first.example.com") "token-1" None
              (Some "second.example.com") "token-2" None
              unconfigured _ _ ConfluenceServiceInstance ConfluenceServiceInstance
              eq_refl eq_refl)
    as (_ & _ & _ & Hcalls & _).
  exact (Hcalls (CallGetContent "123" None)).
Defined.

(** ** Where the specification's wording and the code part *)

(** An empty title is a title the caller supplied, yet the payload carries
    the fetched one. *)
Lemma updateContent_tool_empty_title :
  exists payload : Js.value,
    issued (confluence_updateContent (H := scripted (Resolved oldPage))
              ConfluenceServiceInstance "123" (Some EmptyString) None 6 None)
      configured
    = [GetContentById "123" "body.storage"; Update2 "123" payload]
    /\ Js.get payload "title" = Js.Str "Old"
    /\ Js.get payload "title" <> statedTitle (Some EmptyString) oldPage.
Proof. eexists. split; [reflexivity|]. split; [reflexivity | discriminate]. Qed.

(** The empty string does not contain [body.storage], yet nothing is
    appended to it: the request carries [body.storage], not
    [,body.storage]. *)
Lemma getContent_empty_expand :
  Js.includes EmptyString "body.storage" = false
  /\ issued (getContent (H := scripted (Resolved oldPage))
               ConfluenceServiceInstance "123" (Some EmptyString)) configured
     = [GetContentById "123" "body.storage"]
  /\ issued (getContent (H := scripted (Resolved oldPage))
               ConfluenceServiceInstance "123" (Some EmptyString)) configured
     <> [GetContentById "123" (statedExpand (Some EmptyString))].
Proof. split; [reflexivity|]. split; [reflexivity | discriminate]. Qed.

(** An empty parent comment id is supplied, yet the payload has no
    ancestors. *)
Lemma addComment_empty_parent :
  exists payload : Js.value,
    issued (addComment (H := scripted (Resolved oldPage))
              ConfluenceServiceInstance "123" "<p>hi</p>" (Some EmptyString)) configured
    = [CreateContent payload]
    /\ Js.has payload "ancestors" = false
    /\ statedAncestors (Some EmptyString)
       = Some (Js.Arr [Js.Obj [("id", Js.Str EmptyString)]])
    /\ Some (Js.get payload "ancestors") <> statedAncestors (Some EmptyString).
Proof.
  eexists. split; [reflexivity|]. split; [reflexivity|].
  split; [reflexivity | discriminate].
Qed.

(** An empty full API URL is supplied together with a host: construction
    succeeds and the base URL comes from the host, not from the path. *)
Lemma constructor_empty_fullApiUrl :
  exists s' : State,
    new_ConfluenceService (Some "wiki.example.com") "secret" (Some EmptyString)
      unconfigured
    = (Normal ConfluenceServiceInstance, s')
    /\ BASE (OpenAPI s') = "https://wiki.example.com"
    /\ Some (BASE (OpenAPI s'))
       <> statedBase (Some "wiki.example.com") (Some EmptyString).
Proof. eexists. split; [reflexivity|]. split; [reflexivity | discriminate]. Qed.

(** The same arguments reach the constructor from a start-up whose
    environment leaves the base path blank. *)
Example startup_blank_base_path :
  startup (<["CONFLUENCE_API_BASE_PATH" := EmptyString]>
             (<["CONFLUENCE_HOST" := "wiki.example.com"]>
                {["CONFLUENCE_API_TOKEN" := "secret"]})) unconfigured
  = new_ConfluenceService (Some "wiki.example.com") "secret" (Some EmptyString)
      unconfigured.
Proof. reflexivity. Qed.

(** A host set to the empty string is set, yet the host-or-base-path entry
    is reported. *)
Lemma validateConfig_empty_host :
  let env : ProcessEnv :=
    <["CONFLUENCE_HOST" := EmptyString]> {["CONFLUENCE_API_TOKEN" := "secret"]} in
  env !! "CONFLUENCE_HOST" = Some EmptyString
  /\ validateConfig env = ["CONFLUENCE_HOST or CONFLUENCE_API_BASE_PATH"]
  /\ ~ ("CONFLUENCE_HOST or CONFLUENCE_API_BASE_PATH" ∈ validateConfig env ->
        env !! "CONFLUENCE_HOST" = None /\ env !! "CONFLUENCE_API_BASE_PATH" = None).
Proof.
  split; [reflexivity|]. split; [reflexivity|].
  intros Honly. destruct Honly as [Hhost _]; [|discriminate Hhost].
  apply list_elem_of_singleton. reflexivity.
Qed.

(** * Further properties of the gateway and of the tool handlers *)

Lemma commaFields_nonempty (e : string) : commaFields e <> [].
Proof.
  destruct e as [|c e]; simpl; [done|].
  destruct (Ascii.eqb c ","); [done|]. by destruct (commaFields e).
Qed.

Lemma commaFields_join (a b : string) :
  commaFields (a +:+ "," +:+ b) = (commaFields a ++ commaFields b)%list.
Proof.
  induction a as [|c a IH]; [done|].
  rewrite append_cons. simpl. rewrite IH.
  destruct (Ascii.eqb c ","); [done|].
  pose proof (commaFields_nonempty a). by destruct (commaFields a).
Qed.

Lemma validateConfig_nil (env : ProcessEnv) :
  validateConfig env = []
  <-> Js.given (env !! "CONFLUENCE_API_TOKEN") = true
      /\ (Js.given (env !! "CONFLUENCE_HOST") = true
          \/ Js.given (env !! "CONFLUENCE_API_BASE_PATH") = true).
Proof.
  unfold validateConfig.
  destruct (Js.given (env !! "CONFLUENCE_API_TOKEN")),
           (Js.given (env !! "CONFLUENCE_HOST")),
           (Js.given (env !! "CONFLUENCE_API_BASE_PATH")); simpl;
    intuition congruence.
Qed.

Section MoreGatewayFacts.
Context `{Platform}.

Lemma getContent_request_contains (this : ConfluenceService) (contentId : string)
    (expand : option string) (s : State) (finalExpand : string) :
  issued (getContent this contentId expand) s = [GetContentById contentId finalExpand] ->
  Js.includes finalExpand "body.storage" = true /\ finalExpand <> EmptyString.
Proof.
  rewrite getContent_request. intros [= <-].
  destruct expand as [e|]; [|done].
  destruct (Js.isEmpty e) eqn:He; [done|].
  destruct (Js.includes e "body.storage") eqn:Hinc.
  - split; [done|]. by apply isEmpty_false.
  - split.
    + change ",body.storage" with ("," +:+ "body.storage").
      rewrite append_assoc. apply includes_suffix.
    + destruct e; [done|]. by rewrite append_cons.
Qed.

(** X1: whatever the caller passes as expand, the expand value sent with
    the fetch contains [body.storage] and is not empty. *)
Theorem getContent_always_requests_storage (this : ConfluenceService)
    (contentId : string) (expand : option string) (s : State) :
  exists finalExpand : string,
    issued (getContent this contentId expand) s = [GetContentById contentId finalExpand]
    /\ Js.includes finalExpand "body.storage" = true
    /\ finalExpand <> EmptyString.
Proof.
  eexists. split; [apply getContent_request|].
  apply (getContent_request_contains this contentId expand s), getContent_request.
Qed.

(** X2: the normalisation of expand is idempotent: passing the value that
    was sent back in as the expand argument sends the same value again. *)
Theorem getContent_expand_idempotent (this : ConfluenceService)
    (contentId : string) (expand : option string) (s : State) (finalExpand : string) :
  issued (getContent this contentId expand) s = [GetContentById contentId finalExpand] ->
  issued (getContent this contentId (Some finalExpand)) s
  = [GetContentById contentId finalExpand].
Proof.
  intros Hsent. apply getContent_request_contains in Hsent as [Hinc Hne].
  rewrite getContent_request, Hinc.
  apply isEmpty_false in Hne. by rewrite Hne.
Qed.

(** X3: a non-empty expand loses none of its comma-separated fields; when
    it does not contain [body.storage] the fields sent are the caller's
    followed by the one field [body.storage]. *)
Theorem getContent_keeps_requested_fields (this : ConfluenceService)
    (contentId : string) (e : string) (s : State) :
  e <> EmptyString ->
  exists finalExpand : string,
    issued (getContent this contentId (Some e)) s
    = [GetContentById contentId finalExpand]
    /\ (forall field : string, field ∈ commaFields e -> field ∈ commaFields finalExpand)
    /\ (Js.includes e "body.storage" = false ->
        commaFields finalExpand = (commaFields e ++ ["body.storage"])%list).
Proof.
  intros Hne. apply isEmpty_false in Hne.
  eexists. split; [apply getContent_request|]. rewrite Hne.
  destruct (Js.includes e "body.storage").
  - split; [done | discriminate].
  - change ",body.storage" with ("," +:+ "body.storage").
    rewrite commaFields_join. split; [|done].
    intros field Hfield. apply elem_of_app. by left.
Qed.

(** X4: [getComments] asks for [body.view] when the expand argument is
    absent or empty, and otherwise sends the argument as it is: nothing is
    appended to it, unlike in [getContent]. *)
Theorem getComments_expand_default (this : ConfluenceService) (contentId : string)
    (limit start : option Js.number) (depth : option string) (s : State) :
  (forall expand : option string,
     expand = None \/ expand = Some EmptyString ->
     issued (getComments this contentId limit start expand depth) s
     = [CommentsOfContent contentId "body.view" depth
          (Js.toString <$> limit) (Js.toString <$> start)])
  /\ (forall e : string,
        e <> EmptyString ->
        issued (getComments this contentId limit start (Some e) depth) s
        = [CommentsOfContent contentId e depth
             (Js.toString <$> limit) (Js.toString <$> start)]).
Proof.
  unfold getComments. split.
  - intros expand [-> | ->]; by rewrite issued_handleApiOperation.
  - intros e Hne. rewrite issued_handleApiOperation. by destruct e.
Qed.

End MoreGatewayFacts.

(** ** Start-up *)

Lemma startup_ok (env : ProcessEnv) (s : State) :
  validateConfig env = [] ->
  exists token : string,
    env !! "CONFLUENCE_API_TOKEN" = Some token
    /\ token <> EmptyString
    /\ startup env s
       = (Normal ConfluenceServiceInstance,
          {| OpenAPI :=
               {| BASE := match Js.whenGiven (env !! "CONFLUENCE_API_BASE_PATH") with
                          | Some path => path
                          | None => "https://" +:+ Js.interp (env !! "CONFLUENCE_HOST")
                          end;
                  TOKEN := Some token;
                  VERSION := "1.0" |};
             trace := trace s |}).
Proof.
  intros Hnil. unfold startup. rewrite Hnil. simpl.
  apply validateConfig_nil in Hnil as [Htoken Hsome].
  apply given_true in Htoken as (token & Htoken & Hne).
  exists token. split; [done|]. split; [done|].
  rewrite new_ConfluenceService_run, Htoken. simpl.
  destruct (Js.given (env !! "CONFLUENCE_API_BASE_PATH")) eqn:Hpath.
  - apply given_true in Hpath as (path & Hpath & Hpne).
    rewrite Hpath. simpl. by destruct path.
  - destruct Hsome as [Hhost | ?]; [|congruence].
    apply whenGiven_None in Hpath. rewrite Hpath.
    apply given_true in Hhost as (host & Hhost & Hhne).
    rewrite Hhost. simpl. by destruct host.
Qed.

Lemma startup_throws (env : ProcessEnv) (s : State) :
  validateConfig env <> [] ->
  startup env s
  = (Thrown ("Missing required environment variables: "
             +:+ String.concat ", " (validateConfig env)), s).
Proof. intros Hsome. unfold startup. by destruct (validateConfig env). Qed.

(** X5: start-up throws exactly when [validateConfig] reports something,
    with the message that lists the reported entries, and then changes
    nothing; otherwise it builds the service with the token of the
    environment, the base path as base URL when that is non-empty and
    [https://] followed by the host when it is not.  The constructor's own
    error never comes out of start-up. *)
Theorem startup_outcome (env : ProcessEnv) (s : State) :
  (validateConfig env <> [] ->
   startup env s
   = (Thrown ("Missing required environment variables: "
              +:+ String.concat ", " (validateConfig env)), s))
  /\ (validateConfig env = [] ->
      exists token : string,
        env !! "CONFLUENCE_API_TOKEN" = Some token
        /\ token <> EmptyString
        /\ startup env s
           = (Normal ConfluenceServiceInstance,
              {| OpenAPI :=
                   {| BASE := match Js.whenGiven (env !! "CONFLUENCE_API_BASE_PATH") with
                              | Some path => path
                              | None => "https://" +:+ Js.interp (env !! "CONFLUENCE_HOST")
                              end;
                      TOKEN := Some token;
                      VERSION := "1.0" |};
                 trace := trace s |}))
  /\ (forall s' : State,
        startup env s <> (Thrown "Either host or fullApiUrl must be provided", s')).
Proof.
  split; [apply startup_throws|]. split; [apply startup_ok|].
  intros s'. destruct (validateConfig env) as [|entry entries] eqn:Hlist.
  - destruct (startup_ok env s Hlist) as (token & _ & _ & ->). discriminate.
  - rewrite startup_throws by (rewrite Hlist; discriminate). discriminate.
Qed.

(** ** Construction *)

(** X11: the constructor does not look at the token and sends nothing: with
    a non-empty host or full API URL it succeeds for every token, the empty
    string included, stores that token and version [1.0], and leaves the
    request trace as it was. *)
Theorem constructor_accepts_any_token (host : option string) (token : string)
    (fullApiUrl : option string) (s : State) :
  Js.given host = true \/ Js.given fullApiUrl = true ->
  exists s' : State,
    new_ConfluenceService host token fullApiUrl s = (Normal ConfluenceServiceInstance, s')
    /\ TOKEN (OpenAPI s') = Some token
    /\ VERSION (OpenAPI s') = "1.0"
    /\ trace s' = trace s.
Proof.
  intros Hsome. rewrite new_ConfluenceService_run.
  destruct (Js.whenGiven fullApiUrl) as [url|] eqn:Hfull; [by eexists|].
  destruct (Js.whenGiven host) as [h|] eqn:Hhost; [by eexists|].
  apply whenGiven_None in Hfull, Hhost. destruct Hsome; congruence.
Qed.

Section MoreToolFacts.
Context `{Platform}.

(** X12: a construction that fails leaves the configuration of the earlier
    one in force: later requests still go out under it. *)
Theorem failed_construction_keeps_config
    (host1 : option string) (token1 : string) (fullApiUrl1 : option string)
    (host2 : option string) (token2 : string) (fullApiUrl2 : option string)
    (s s1 : State) (first : ConfluenceService) :
  new_ConfluenceService host1 token1 fullApiUrl1 s = (Normal first, s1) ->
  Js.given host2 = false ->
  Js.given fullApiUrl2 = false ->
  new_ConfluenceService host2 token2 fullApiUrl2 s1
  = (Thrown "Either host or fullApiUrl must be provided", s1)
  /\ TOKEN (OpenAPI s1) = Some token1
  /\ (forall calls : list (ConfluenceService * GatewayCall),
        issuedUnder (performEach calls) s1 = replicate (length calls) (OpenAPI s1)).
Proof.
  intros Hfirst Hhost Hfull. split; [|split].
  - rewrite new_ConfluenceService_run.
    apply whenGiven_None in Hhost, Hfull. by rewrite Hhost, Hfull.
  - apply new_ConfluenceService_config in Hfirst. by rewrite Hfirst.
  - intros calls. apply performEach_under_current_config.
Qed.


(** X7: the create handler sends one create request.  Its payload has the
    caller's type, or [page] when the type is absent or empty; the title;
    the space key; the content in storage representation, even when the
    content is empty; ancestors [[{id: parentId}]] when [parentId] is a
    non-empty string and no ancestors property otherwise; and neither an id
    nor a version. *)
Theorem createContent_tool_payload (confluenceService : ConfluenceService)
    (title spaceKey : string) (type : option string) (content : string)
    (parentId : option string) (s : State) :
  exists payload : Js.value,
    issued (confluence_createContent confluenceService title spaceKey type content
              parentId) s
    = [CreateContent payload]
    /\ Js.get payload "type"
       = Js.Str (match Js.whenGiven type with Some t => t | None => "page" end)
    /\ Js.get payload "title" = Js.Str title
    /\ Js.get payload "space" = Js.Obj [("key", Js.Str spaceKey)]
    /\ Js.get payload "body" = storageBody (Js.Str content)
    /\ match Js.whenGiven parentId with
       | Some p => Js.get payload "ancestors" = Js.Arr [Js.Obj [("id", Js.Str p)]]
       | None => Js.has payload "ancestors" = false
       end
    /\ Js.has payload "id" = false
    /\ Js.has payload "version" = false.
Proof.
  eexists. split.
  - unfold issued, confluence_createContent, createContent, mbind, M_bind.
    rewrite handleApiOperation_run. simpl. by rewrite drop_app_length.
  - destruct parentId as [[|p0 p]|], type as [[|t0 t]|]; simpl; by repeat split.
Qed.

(** X8: the update payload has the properties id, type, title, space and
    version, followed by body exactly when the caller's content is
    non-empty, and nothing else; of the fetched data it depends on the
    type, the title and the space only. *)
Theorem updateObjOf_shape (contentId : string) (title content : option string)
    (version : Js.number) (versionComment : option string) (contentData : Js.value) :
  objectKeys (updateObjOf contentId title content version versionComment contentData)
  = (["id"; "type"; "title"; "space"; "version"]
     ++ (if Js.given content then ["body"] else []))%list
  /\ (forall other : Js.value,
        Js.get other "type" = Js.get contentData "type" ->
        Js.get other "title" = Js.get contentData "title" ->
        Js.get other "space" = Js.get contentData "space" ->
        updateObjOf contentId title content version versionComment other
        = updateObjOf contentId title content version versionComment contentData).
Proof.
  unfold updateObjOf. split.
  - by destruct (Js.given content).
  - intros other -> -> ->. done.
Qed.

Lemma updateContent_tool_closed_form (confluenceService : ConfluenceService)
    (contentId : string) (title content : option string) (version : Js.number)
    (versionComment : option string) (s : State) :
  let fetch := GetContentById contentId "body.storage" in
  let currentContent :=
    envelopeOf "Error getting content" (remote (OpenAPI s) (trace s) fetch) in
  let fetched := (trace s ++ [{| config := OpenAPI s; call := fetch |}])%list in
  let update :=
    Update2 contentId
      (updateObjOf contentId title content version versionComment
         (default Js.Undefined (data currentContent))) in
  confluence_updateContent confluenceService contentId title content version
    versionComment s
  = if negb (success currentContent) || negb (hasData currentContent)
    then (Normal (formatToolResponse
                    {| success := false; data := None;
                       error := Some ("Failed to retrieve content with ID "
                                      +:+ contentId +:+ ": "
                                      +:+ Js.orElse (error currentContent)
                                            "Unknown error") |}),
          {| OpenAPI := OpenAPI s; trace := fetched |})
    else (Normal (formatToolResponse
                    (envelopeOf "Error updating content"
                       (remote (OpenAPI s) fetched update))),
          {| OpenAPI := OpenAPI s;
             trace := (fetched ++ [{| config := OpenAPI s; call := update |}])%list |}).
Proof.
  unfold confluence_updateContent, getContent, updateContent, handleApiOperation,
    mbind, M_bind.
  simpl. by destruct (negb _ || negb _).
Qed.

(** X9: the update handler never throws and leaves the configuration as it
    is.  It always sends the fetch first, with expand [body.storage]; when
    the fetched envelope reports success with data it then sends one update
    for the same content id and answers with the formatted envelope of that
    update, whatever it is, the service having seen the fetch before the
    update; otherwise the fetch is the only request. *)
Theorem updateContent_tool_run (confluenceService : ConfluenceService)
    (contentId : string) (title content : option string) (version : Js.number)
    (versionComment : option string) (s : State) :
  let fetch := GetContentById contentId "body.storage" in
  let currentContent :=
    envelopeOf "Error getting content" (remote (OpenAPI s) (trace s) fetch) in
  let handler :=
    confluence_updateContent confluenceService contentId title content version
      versionComment in
  exists (response : ToolResponse) (s' : State),
    handler s = (Normal response, s')
    /\ OpenAPI s' = OpenAPI s
    /\ if success currentContent && hasData currentContent
       then exists payload : Js.value,
              issued handler s = [fetch; Update2 contentId payload]
              /\ Js.get payload "id" = Js.Str contentId
              /\ response
                 = formatToolResponse
                     (envelopeOf "Error updating content"
                        (remote (OpenAPI s)
                           (trace s ++ [{| config := OpenAPI s; call := fetch |}])%list
                           (Update2 contentId payload)))
       else issued handler s = [fetch].
Proof.
  intros fetch currentContent handler.
  unfold handler, issued. rewrite updateContent_tool_closed_form.
  fold fetch. fold currentContent.
  destruct (success currentContent), (hasData currentContent); simpl.
  - do 2 eexists. split; [reflexivity|]. split; [reflexivity|].
    eexists. rewrite <- app_assoc, drop_app_length.
    split; [reflexivity|]. split; [|reflexivity].
    unfold updateObjOf. by destruct (Js.given content).
  - do 2 eexists. split; [reflexivity|]. split; [reflexivity|].
    by rewrite drop_app_length.
  - do 2 eexists. split; [reflexivity|]. split; [reflexivity|].
    by rewrite drop_app_length.
  - do 2 eexists. split; [reflexivity|]. split; [reflexivity|].
    by rewrite drop_app_length.
Qed.

(** X10: every body built by this layer is in storage representation: in
    the payload of [addComment], in the payload of the create handler, and
    in the update payload whenever it has a body. *)
Theorem body_is_storage_representation :
  (forall (this : ConfluenceService) (contentId body : string)
          (parentCommentId : option string) (s : State) (payload : Js.value),
     issued (addComment this contentId body parentCommentId) s = [CreateContent payload] ->
     bodyRepresentation payload = Js.Str "storage")
  /\ (forall (confluenceService : ConfluenceService) (title spaceKey : string)
            (type : option string) (content : string) (parentId : option string)
            (s : State) (payload : Js.value),
        issued (confluence_createContent confluenceService title spaceKey type content
                  parentId) s
        = [CreateContent payload] ->
        bodyRepresentation payload = Js.Str "storage")
  /\ (forall (contentId : string) (title content : option string)
            (version : Js.number) (versionComment : option string)
            (contentData : Js.value),
        let payload :=
          updateObjOf contentId title content version versionComment contentData in
        Js.has payload "body" = true ->
        bodyRepresentation payload = Js.Str "storage").
Proof.
  split; [|split].
  - intros this contentId body parentCommentId s payload.
    unfold addComment. rewrite issued_handleApiOperation. intros [= <-].
    by destruct (Js.given parentCommentId).
  - intros confluenceService title spaceKey type content parentId s payload.
    unfold issued, confluence_createContent, createContent, mbind, M_bind.
    rewrite handleApiOperation_run. simpl. rewrite drop_app_length.
    intros [= <-]. by destruct (Js.given parentId).
  - intros contentId title content version versionComment contentData.
    unfold updateObjOf. by destruct (Js.given content).
Qed.

End MoreToolFacts.

(** ** From the environment to the requests *)

Section StartupFacts.
Context `{Platform}.

(** X6: after a start-up that succeeds, every request of every gateway
    call goes out with the token of the environment, version [1.0], and the
    base URL taken from the base path when that is non-empty and from the
    host otherwise. *)
Theorem requests_after_startup (env : ProcessEnv) (s s' : State)
    (confluenceService : ConfluenceService)
    (calls : list (ConfluenceService * GatewayCall)) (used : OpenAPIConfig) :
  startup env s = (Normal confluenceService, s') ->
  used ∈ issuedUnder (performEach calls) s' ->
  Some (BASE used)
  = match Js.whenGiven (env !! "CONFLUENCE_API_BASE_PATH") with
    | Some path => Some path
    | None => String.append "https://" <$> env !! "CONFLUENCE_HOST"
    end
  /\ TOKEN used = env !! "CONFLUENCE_API_TOKEN"
  /\ VERSION used = "1.0".
Proof.
  intros Hstart Hused.
  rewrite performEach_under_current_config in Hused.
  apply elem_of_replicate in Hused as [-> _].
  destruct (validateConfig env) as [|entry entries] eqn:Hlist.
  - destruct (startup_ok env s Hlist) as (token & Htoken & _ & Hrun).
    rewrite Hrun in Hstart. injection Hstart as _ <-. simpl.
    rewrite Htoken. split; [|done].
    destruct (Js.whenGiven (env !! "CONFLUENCE_API_BASE_PATH")) eqn:Hpath; [done|].
    apply validateConfig_nil in Hlist as [_ [Hhost | Hgiven]].
    + apply given_true in Hhost as (host & -> & _). done.
    + apply whenGiven_None in Hpath. congruence.
  - rewrite startup_throws in Hstart by (rewrite Hlist; discriminate). discriminate.
Qed.

End StartupFacts.

(** ** The further properties at sample inputs *)

Lemma getContent_expand_idempotent_sample :
  issued (getContent (H := scripted (Resolved oldPage)) ConfluenceServiceInstance
            "123" (Some "version,body.storage")) configured
  = [GetContentById "123" "version,body.storage"].
Proof.
  apply (getContent_expand_idempotent (H := scripted (Resolved oldPage))
           ConfluenceServiceInstance "123" (Some "version") configured).
  reflexivity.
Defined.

Lemma getContent_keeps_requested_fields_sample :
  exists finalExpand : string,
    issued (getContent (H := scripted (Resolved oldPage)) ConfluenceServiceInstance
              "123" (Some "version,space")) configured
    = [GetContentById "123" finalExpand]
    /\ commaFields finalExpand = ["version"; "space"; "body.storage"].
Proof.
  destruct (getContent_keeps_requested_fields (H := scripted (Resolved oldPage))
              ConfluenceServiceInstance "123" "version,space" configured)
    as (finalExpand & Hissued & _ & Hfields); [discriminate|].
  exists finalExpand. split; [exact Hissued | exact (Hfields eq_refl)].
Defined.

Lemma getComments_expand_default_sample :
  issued (getComments (H := scripted (Resolved oldPage)) ConfluenceServiceInstance
            "123" (Some 25) None (Some EmptyString) (Some "all")) configured
    = [CommentsOfContent "123" "body.view" (Some "all") (Some "25") None]
  /\ issued (getComments (H := scripted (Resolved oldPage)) ConfluenceServiceInstance
               "123" (Some 25) None (Some "body.storage") (Some "all")) configured
     = [CommentsOfContent "123" "body.storage" (Some "all") (Some "25") None].
Proof.
  destruct (getComments_expand_default (H := scripted (Resolved oldPage))
              ConfluenceServiceInstance "123" (Some 25) None (Some "all") configured)
    as [Hdefault Hkeep].
  split.
  - apply (Hdefault (Some EmptyString)). by right.
  - apply (Hkeep "body.storage"). discriminate.
Defined.

Lemma startup_outcome_sample :
  startup ∅ unconfigured
    = (Thrown ("Missing required environment variables: "
               +:+ "CONFLUENCE_API_TOKEN, CONFLUENCE_HOST or CONFLUENCE_API_BASE_PATH"),
       unconfigured)
  /\ exists token : string,
       startup (<["CONFLUENCE_API_BASE_PATH" := "https://wiki.example.com/confluence"]>
                  (<["CONFLUENCE_HOST" := "ignored.example.com"]>
                     {["CONFLUENCE_API_TOKEN" := "secret"]})) unconfigured
       = (Normal ConfluenceServiceInstance,
          {| OpenAPI := {| BASE := "https://wiki.example.com/confluence";
                           TOKEN := Some token; VERSION := "1.0" |};
             trace := [] |}).
Proof.
  split.
  - assert (validateConfig ∅ <> []) as Hsome by (intros Hnil; discriminate Hnil).
    exact (proj1 (startup_outcome ∅ unconfigured) Hsome).
  - set (env := <["CONFLUENCE_API_BASE_PATH" := "https://wiki.example.com/confluence"]>
                  (<["CONFLUENCE_HOST" := "ignored.example.com"]>
                     {["CONFLUENCE_API_TOKEN" := "secret"]}) : ProcessEnv).
    assert (validateConfig env = []) as Hnil by reflexivity.
    destruct (proj1 (proj2 (startup_outcome env unconfigured)) Hnil)
      as (token & _ & _ & Hrun).
    exists token. exact Hrun.
Defined.

Lemma requests_after_startup_sample :
  let env : ProcessEnv :=
    <["CONFLUENCE_HOST" := "wiki.example.com"]> {["CONFLUENCE_API_TOKEN" := "secret"]} in
  let used : OpenAPIConfig :=
    {| BASE := "https://wiki.example.com"; TOKEN := Some "secret"; VERSION := "1.0" |} in
  used ∈ issuedUnder
           (performEach (H := scripted (Resolved oldPage))
              [(ConfluenceServiceInstance, CallGetContent "123" None);
               (ConfluenceServiceInstance, CallAddLabel "123" "draft" None)])
           (startup env unconfigured).2
  /\ TOKEN used = env !! "CONFLUENCE_API_TOKEN".
Proof.
  intros env used.
  assert (used ∈ issuedUnder
                   (performEach (H := scripted (Resolved oldPage))
                      [(ConfluenceServiceInstance, CallGetContent "123" None);
                       (ConfluenceServiceInstance, CallAddLabel "123" "draft" None)])
                   (startup env unconfigured).2) as Hused
    by (apply (list_elem_of_here used [used])).
  split; [exact Hused|].
  apply (requests_after_startup (H := scripted (Resolved oldPage)) env unconfigured
           (startup env unconfigured).2 ConfluenceServiceInstance _ used eq_refl Hused).
Defined.

Lemma constructor_accepts_any_token_sample :
  exists s' : State,
    new_ConfluenceService (Some "wiki.example.com") EmptyString None unconfigured
    = (Normal ConfluenceServiceInstance, s')
    /\ TOKEN (OpenAPI s') = Some EmptyString.
Proof.
  destruct (constructor_accepts_any_token (Some "wiki.example.com") EmptyString None
              unconfigured (or_introl eq_refl))
    as (s' & Hrun & Htoken & _ & _).
  exists s'. split; [exact Hrun | exact Htoken].
Defined.

Lemma failed_construction_keeps_config_sample :
  new_ConfluenceService None "token-2" (Some EmptyString) configured
    = (Thrown "Either host or fullApiUrl must be provided", configured)
  /\ TOKEN (OpenAPI configured) = Some "secret".
Proof.
  destruct (failed_construction_keeps_config (H := scripted (Resolved oldPage))
              (Some "wiki.example.com") "secret" None
              None "token-2" (Some EmptyString)
              unconfigured configured ConfluenceServiceInstance
              eq_refl eq_refl eq_refl)
    as (Hthrown & Htoken & _).
  split; [exact Hthrown | exact Htoken].
Defined.


Lemma updateObjOf_shape_sample :
  updateObjOf "123" None (Some "<p>new</p>") 5 (Some "c")
    (Js.Obj [("type", Js.Str "page"); ("title", Js.Str "Old");
             ("space", Js.Obj [("key", Js.Str "X")]);
             ("body", storageBody (Js.Str "<p>old</p>"));
             ("version", Js.Obj [("number", Js.Num 4)])])
  = updateObjOf "123" None (Some "<p>new</p>") 5 (Some "c") oldPage.
Proof.
  apply (proj2 (updateObjOf_shape "123" None (Some "<p>new</p>") 5 (Some "c") oldPage));
    reflexivity.
Defined.

Lemma body_is_storage_representation_sample :
  bodyRepresentation (updateObjOf "123" None (Some "<p>new</p>") 5 None oldPage)
  = Js.Str "storage".
Proof.
  destruct (body_is_storage_representation (H := scripted (Resolved oldPage)))
    as (_ & _ & Hupdate).
  apply (Hupdate "123" None (Some "<p>new</p>") 5 None oldPage). reflexivity.
Defined.
